(** * Flood Digital Assistant (src/flood.py): a shallow embedding

    The script is a Streamlit page.  Each interaction re-runs the module
    body: the credential check of Step 3, the constant data dictionary and
    hardcoded Q&A table, then (when the text field is non-empty) the
    try-block that picks the canned answer or delegates to the SQL agent,
    and appends turns to [st.session_state.conversation].

    Strings are Rocq [string]s: the UTF-8 bytes of the Python [str].  The
    two [str] methods the script calls, [lower] and [strip], are library
    code and are kept abstract ([py_str_methods]): every theorem below
    holds for any implementation of them, Python's Unicode-aware ones
    included.  [ascii_str_methods] implements them for ASCII text, on which
    they agree with Python's; it serves for the concrete examples. *)

From Stdlib Require Import String Ascii List Bool Arith Lia.
Import ListNotations.
Open Scope string_scope.

(** ** Character constants and Python string methods *)

Definition nl : string := String (ascii_of_nat 10) EmptyString.
Definition dq : string := String (ascii_of_nat 34) EmptyString.

(** The [str] methods of line 142: [s.lower()] and [s.strip()]. *)
Record py_str_methods := {
  py_lower : string -> string;
  py_strip : string -> string }.

(** [c.isspace()] on an ASCII character: 9-13 and 28-32. *)
Definition ascii_isspace (c : ascii) : bool :=
  let n := nat_of_ascii c in
  (((9 <=? n) && (n <=? 13)) || ((28 <=? n) && (n <=? 32)))%nat.

Definition ascii_lower_char (c : ascii) : ascii :=
  let n := nat_of_ascii c in
  if ((65 <=? n) && (n <=? 90))%nat then ascii_of_nat (n + 32)%nat else c.

(** [s.lower()] on ASCII text. *)
Fixpoint ascii_lower (s : string) : string :=
  match s with
  | EmptyString => EmptyString
  | String c s' => String (ascii_lower_char c) (ascii_lower s')
  end.

Fixpoint ascii_lstrip (s : string) : string :=
  match s with
  | EmptyString => EmptyString
  | String c s' => if ascii_isspace c then ascii_lstrip s' else s
  end.

Fixpoint ascii_rstrip (s : string) : string :=
  match s with
  | EmptyString => EmptyString
  | String c s' =>
      let r := ascii_rstrip s' in
      if String.eqb r EmptyString && ascii_isspace c then EmptyString
      else String c r
  end.

(** [s.strip()] on ASCII text. *)
Definition ascii_strip (s : string) : string := ascii_rstrip (ascii_lstrip s).

Definition ascii_str_methods : py_str_methods :=
  {| py_lower := ascii_lower; py_strip := ascii_strip |}.

(** Python truthiness of a [str] ([if s:]). *)
Definition py_truthy (s : string) : bool := negb (String.eqb s EmptyString).

(** A Python dict with string keys, as an association list in insertion
    order; [dict_get k d] is [d.get(k)]. *)
Definition dict := list (string * string).

Fixpoint dict_get (k : string) (d : dict) : option string :=
  match d with
  | [] => None
  | (k', v) :: d' => if String.eqb k k' then Some v else dict_get k d'
  end.

(** ** Step 6: the data dictionary and the hardcoded Q&A table *)

Definition data_dictionary : string :=
  String.concat nl
    [ ""
    ; "### Detailed Data Dictionary for 'flood.db'"
    ; ""
    ; "The database contains three tables: **inundation_forecasting**, **rainfall**, and **alerts**."
    ; "Below is a detailed breakdown of each column and their relationships."
    ; ""
    ; "---"
    ; ""
    ; "#### 1. inundation_forecasting"
    ; "- **datetime**: Timestamp indicating the date and time of the forecast (e.g. " ++ dq ++ "2025-01-01 08:00:00" ++ dq ++ ")."
    ; "- **ht_forecast**: Numerical value representing the predicted water height or inundation level (e.g. " ++ dq ++ "5.2 feet" ++ dq ++ ")."
    ; "- **latitude**: Geographic latitude coordinate for the forecast location (e.g. " ++ dq ++ "24.4539" ++ dq ++ ")."
    ; "- **longitude**: Geographic longitude coordinate for the forecast location (e.g. " ++ dq ++ "54.3773" ++ dq ++ ")."
    ; ""
    ; "**Purpose**:  "
    ; "This table is used to store predictive data for flooding. The `ht_forecast` helps determine flood severity, and the lat/long fields map exactly where the forecast is applicable."
    ; ""
    ; "---"
    ; ""
    ; "#### 2. rainfall"
    ; "- **precipInches**: Amount of rainfall measured in inches (e.g. " ++ dq ++ "0.75" ++ dq ++ ")."
    ; "- **deviceId**: Unique identifier of the device recording rainfall (e.g. " ++ dq ++ "R123" ++ dq ++ ")."
    ; "- **deviceLabel**: Human-readable label/name of the device (e.g. " ++ dq ++ "Downtown Rain Gauge" ++ dq ++ ")."
    ; "- **region**: Region or area name associated with the device (e.g. " ++ dq ++ "Abu Dhabi City Center" ++ dq ++ ")."
    ; "- **msr_date**: Date of the measurement (e.g. " ++ dq ++ "2025-01-05" ++ dq ++ ")."
    ; "- **msr_time**: Time of the measurement (e.g. " ++ dq ++ "14:30:00" ++ dq ++ ")."
    ; "- **latitude**: Geographic latitude coordinate of the device (e.g. " ++ dq ++ "24.4539" ++ dq ++ ")."
    ; "- **longitude**: Geographic longitude coordinate of the device (e.g. " ++ dq ++ "54.3773" ++ dq ++ ")."
    ; "- **msr_dttm**: Combined date-time of the measurement, often used for queries and analysis (e.g. " ++ dq ++ "2025-01-05 14:30:00" ++ dq ++ ")."
    ; ""
    ; "**Purpose**:  "
    ; "This table tracks rainfall data from various devices. The `region` column can be linked to the region in alerts or used in conjunction with lat/long to match forecasting data or alerts."
    ; ""
    ; "---"
    ; ""
    ; "#### 3. alerts"
    ; "- **alertType**: Type of alert (e.g. " ++ dq ++ "Flood Warning" ++ dq ++ ", " ++ dq ++ "Flash Flood" ++ dq ++ ", " ++ dq ++ "High Tide" ++ dq ++ ")."
    ; "- **alertSubtype**: More specific subtype of the alert (e.g. " ++ dq ++ "Severe" ++ dq ++ ", " ++ dq ++ "Moderate" ++ dq ++ ")."
    ; "- **alertSeverity**: Severity level (e.g. " ++ dq ++ "Critical" ++ dq ++ ", " ++ dq ++ "High" ++ dq ++ ", " ++ dq ++ "Medium" ++ dq ++ ", " ++ dq ++ "Low" ++ dq ++ ")."
    ; "- **alertMessage**: Text describing the alert (e.g. " ++ dq ++ "Flash Flood Watch in effect until 6 PM." ++ dq ++ ")."
    ; "- **deviceId**: Device ID associated with the alert; may link to `rainfall.deviceId` if relevant."
    ; "- **region**: Region name where the alert is applicable (e.g. " ++ dq ++ "Al Nahdah" ++ dq ++ ")."
    ; "- **msr_dttm**: Combined date-time when the alert was issued (e.g. " ++ dq ++ "2025-01-05 14:45:00" ++ dq ++ ")."
    ; "- **msr_date**: Date when the alert was issued (e.g. " ++ dq ++ "2025-01-05" ++ dq ++ ")."
    ; "- **msr_time**: Time when the alert was issued (e.g. " ++ dq ++ "14:45:00" ++ dq ++ ")."
    ; "- **msr_month**: Month of the alert, either numeric or textual (e.g. " ++ dq ++ "January" ++ dq ++ " or " ++ dq ++ "01" ++ dq ++ ")."
    ; "- **Lat**: Latitude coordinate of the alert location (e.g. " ++ dq ++ "24.4539" ++ dq ++ ")."
    ; "- **Long**: Longitude coordinate of the alert location (e.g. " ++ dq ++ "54.3773" ++ dq ++ ")."
    ; ""
    ; "**Purpose**:  "
    ; "This table stores alerts that have been triggered, including the type of flood alert, severity, and location details."
    ; ""
    ; "---"
    ; ""
    ; "### Potential Relationships:"
    ; "1. **alerts.deviceId** ⇔ **rainfall.deviceId**:  "
    ; "   If both the `alerts` and `rainfall` tables share the same device ID, they can be joined to correlate which specific rainfall device triggered an alert."
    ; "2. **alerts.region** ⇔ **rainfall.region**:  "
    ; "   If you want to track all alerts for a given region, you can join on the `region` column. The same can be done with `inundation_forecasting` if you assign region names consistently or rely on the lat/long proximity to match the region."
    ; "3. **Spatial/Geographic Matching**:  "
    ; "   By comparing lat/long values in `inundation_forecasting`, `rainfall`, and `alerts`, you can determine how different meteorological or hydrological events line up in the same area."
    ; ""
    ; "---"
    ; ""
    ; "### Usage:"
    ; "Use this data dictionary to understand the purpose of each field when querying the database or building flood-related analytics."
    ; "" ].

Definition qa_answer_areas : string :=
  String.concat nl
    [ "Based on our historical data and current forecasting models, the areas that exhibit the highest vulnerability to future flood events are **Al Adlah**, **Al Nahdah**, **Bu Deeb**, and **Al Haffar**. These locations consistently appear in our inundation forecasts due to their geographical profiles and proximity to low-lying flood plains." ].

Definition qa_answer_recommendation : string :=
  String.concat nl
    [ "To mitigate the risk in these high-impact areas, we recommend an integrated approach:"
    ; ""
    ; "1. **Infrastructure Upgrades**: Enhance and maintain drainage systems, and consider building    protective levees or flood barriers."
    ; "2. **Smart Monitoring**: Install additional rainfall gauges and flood sensors for real-time monitoring."
    ; "3. **Urban Planning**: Implement zoning regulations to limit construction in flood-prone zones."
    ; "4. **Community Preparedness**: Conduct regular flood drills, ensure early-warning systems are in place,    and provide public education on emergency response." ].

Definition qa_answer_why : string :=
  String.concat nl
    [ "These regions are particularly vulnerable due to a combination of factors:"
    ; ""
    ; "- **Topography**: Areas like Al Adlah and Al Nahdah have lower elevations, causing water to accumulate."
    ; "- **Coastal Proximity**: Bu Deeb is near a coastal plain, making it susceptible to storm surges."
    ; "- **Drainage and Infrastructure**: Al Haffar’s drainage systems may require updates to handle heavy rainfall."
    ; "- **Historical Patterns**: Data shows these areas have experienced recurring flood incidents,    indicating underlying vulnerabilities that require focused intervention." ].

Definition hardcoded_qa : dict :=
  [ ("which area will have a high impact for future floods", qa_answer_areas)
  ; ("recommendation to reduce impact", qa_answer_recommendation)
  ; ("why are these areas impacted", qa_answer_why) ].


(** ** The SQL agent and the try-block of Step 7 *)

(** What [agent_executor.invoke(...)] does: raise an exception of a
    subclass of [Exception] (carrying [str(e)]), raise a [BaseException]
    outside [Exception] such as [KeyboardInterrupt] or [SystemExit] (its
    class name and [str(e)]), or return a dict of which the script reads
    ["output"]. *)
Inductive agent_reply :=
  | Raised (msg : string)
  | RaisedBase (exn_type msg : string)
  | Returned (fields : dict).

(** How the try-block ends: with a [result], in [except Exception as e]
    with [str(e)], or with an exception that [except Exception] does not
    catch. *)
Inductive outcome :=
  | Ok (result : string)
  | Exn (msg : string)
  | Uncaught (exn_type msg : string).

(** What the resolver gives its caller: an answer text, or an exception
    that propagates. *)
Inductive resolution :=
  | Answer (text : string)
  | Propagates (exn_type msg : string).

Inductive speaker := User | Assistant.

Definition turn : Type := speaker * string.

Section Agent.

Variable M : py_str_methods.

(** The agent is an opaque, possibly stateful, service: [invoke s query]
    is its answer to the prompt [{"input": query}] in state [s]. *)
Variable Svc : Type.
Variable invoke : Svc -> string -> Svc * agent_reply.

(** Lines 142-153, reading the two module globals [dd] (data_dictionary)
    and [qa] (hardcoded_qa).  Besides the new agent state and the outcome,
    it returns the list of prompts sent to the agent. *)
Definition try_resolve (dd : string) (qa : dict) (s : Svc) (user_input : string)
    : Svc * list string * outcome :=
  let user_input_lower := py_strip M (py_lower M user_input) in
  let query := dd ++ nl ++ nl ++ user_input in
  match dict_get user_input_lower qa with
  | Some result => (s, [], Ok result)
  | None =>
      let (s', rep) := invoke s query in
      (s', [query],
        match rep with
        | Raised m => Exn m
        | RaisedBase t m => Uncaught t m
        | Returned d =>
            match dict_get "output" d with
            | Some o => Ok o
            | None => Exn "'output'"   (* KeyError('output') *)
            end
        end)
  end.

(** The Assistant's text for a result (line 156) or a caught exception
    (line 158); an uncaught exception leaves the block. *)
Definition render (o : outcome) : resolution :=
  match o with
  | Ok r => Answer r
  | Exn m => Answer ("Error: " ++ m)
  | Uncaught t m => Propagates t m
  end.

(** The resolver with the program's own globals: new agent state, prompts
    sent, and what it gives back. *)
Definition resolve (s : Svc) (question : string) : Svc * list string * resolution :=
  let '(s', calls, o) := try_resolve data_dictionary hardcoded_qa s question in
  (s', calls, render o).

(** The state one Streamlit session sees: the module globals, the
    conversation in [st.session_state], the agent's state and the log of
    prompts sent to it. *)
Record app_state := {
  st_data_dictionary : string;
  st_hardcoded_qa : dict;
  st_conversation : list turn;
  st_service : Svc;
  st_calls : list string }.

(** Lines 140-158: one run of the page with [user_input] in the field.  An
    uncaught exception ends the run before any append. *)
Definition submit (g : app_state) (user_input : string) : app_state :=
  if py_truthy user_input then
    let '(s', calls, o) :=
      try_resolve (st_data_dictionary g) (st_hardcoded_qa g) (st_service g) user_input in
    let conv :=
      match o with
      | Ok result =>
          (st_conversation g ++ [(User, user_input); (Assistant, result)])%list
      | Exn m => (st_conversation g ++ [(Assistant, ("Error: " ++ m)%string)])%list
      | Uncaught _ _ => st_conversation g
      end in
    {| st_data_dictionary := st_data_dictionary g;
       st_hardcoded_qa := st_hardcoded_qa g;
       st_conversation := conv;
       st_service := s';
       st_calls := (st_calls g ++ calls)%list |}
  else g.

Definition initial_state (s0 : Svc) : app_state :=
  {| st_data_dictionary := data_dictionary;
     st_hardcoded_qa := hardcoded_qa;
     st_conversation := [];
     st_service := s0;
     st_calls := [] |}.

(** A session: successive runs of the page. *)
Definition run_session (g : app_state) (inputs : list string) : app_state :=
  fold_left submit inputs g.

(** An input of which line 153 is reached: non-empty, and its trimmed,
    lower-cased form is not a key of [qa]. *)
Definition delegated_input (qa : dict) (u : string) : bool :=
  py_truthy u &&
  match dict_get (py_strip M (py_lower M u)) qa with
  | Some _ => false
  | None => true
  end.

End Agent.

Arguments try_resolve M {Svc} invoke dd qa s user_input.
Arguments resolve M {Svc} invoke s question.
Arguments submit M {Svc} invoke g user_input.
Arguments run_session M {Svc} invoke g inputs.
Arguments initial_state {Svc} s0.
Arguments st_data_dictionary {Svc} _.
Arguments st_hardcoded_qa {Svc} _.
Arguments st_conversation {Svc} _.
Arguments st_service {Svc} _.
Arguments st_calls {Svc} _.

(** Lines 164-168: the scrollback. *)
Definition display_turn (t : turn) : string :=
  match t with
  | (User, m) => "**You:** " ++ m
  | (Assistant, m) => "**Assistant:** " ++ m
  end.

Definition display (conv : list turn) : list string := map display_turn conv.

(** Every User turn of a conversation is immediately followed by an
    Assistant turn. *)
Fixpoint user_answered (conv : list turn) : bool :=
  match conv with
  | [] => true
  | (User, _) :: (Assistant, _) :: rest => user_answered rest
  | (User, _) :: _ => false
  | (Assistant, _) :: rest => user_answered rest
  end.

(** ** Step 3: loading the environment and the credential check *)

(** [os.environ] as a dict; a later [os.environ[k] = v] shadows [k]. *)
Definition env := dict.

Definition env_set (k v : string) (environ : env) : env := (k, v) :: environ.

(** The entries python-dotenv reads from the .env file, in file order: a
    key and its value, already parsed and [${VAR}]-expanded (parsing and
    expansion are not modelled), or [None] for a line with a key and no
    [=].  No .env file gives []. *)
Definition dotenv_entries := list (string * option string).

Fixpoint odict_get (k : string) (d : dotenv_entries) : option (option string) :=
  match d with
  | [] => None
  | (k', v) :: d' => if String.eqb k k' then Some v else odict_get k d'
  end.

(** [d[k] = v] on an [OrderedDict]: an existing key keeps its place and
    takes the new value, a new key goes last. *)
Fixpoint odict_set (k : string) (v : option string) (d : dotenv_entries)
    : dotenv_entries :=
  match d with
  | [] => [(k, v)]
  | (k', v') :: d' => if String.eqb k k' then (k, v) :: d' else (k', v') :: odict_set k v d'
  end.

(** [DotEnv.dict()]: the entries collected into an [OrderedDict], so the
    last entry of a key wins. *)
Definition dotenv_values (entries : dotenv_entries) : dotenv_entries :=
  fold_left (fun d kv => odict_set (fst kv) (snd kv) d) entries [].

(** [DotEnv.set_as_environment_variables()] with [override=False]:
    [if k in os.environ and not override: continue];
    [if v is not None: os.environ[k] = v]. *)
Definition set_as_environment_variables (values : dotenv_entries) (environ : env) : env :=
  fold_left
    (fun e kv =>
       match dict_get (fst kv) e with
       | Some _ => e
       | None =>
           match snd kv with
           | Some v => env_set (fst kv) v e
           | None => e
           end
       end)
    values environ.

(** [load_dotenv()] *)
Definition load_dotenv (dotenv_file : dotenv_entries) (environ : env) : env :=
  set_as_environment_variables (dotenv_values dotenv_file) environ.

Definition missing_key_msg : string :=
  "OPENAI_API_KEY not found. Please add it to your .env file.".

Inductive startup_result :=
  | Abort (exn_type msg : string)
  | Started (environ : env).

(** Lines 16-20. *)
Definition startup (environ : env) (dotenv_file : dotenv_entries) : startup_result :=
  let environ := load_dotenv dotenv_file environ in
  let api_key := dict_get "OPENAI_API_KEY" environ in
  (* if not api_key: raise ValueError(...) *)
  match api_key with
  | Some k =>
      if py_truthy k then Started (env_set "OPENAI_API_KEY" k environ)
      else Abort "ValueError" missing_key_msg
  | None => Abort "ValueError" missing_key_msg
  end.

Inductive app_result (Svc : Type) :=
  | Aborted (exn_type msg : string)
  | Running (g : app_state Svc).

Arguments Aborted {Svc} exn_type msg.
Arguments Running {Svc} g.

(** The whole program: the module-level startup, then the session. *)
Definition run_app (M : py_str_methods) {Svc : Type}
    (invoke : Svc -> string -> Svc * agent_reply)
    (environ : env) (dotenv_file : dotenv_entries) (s0 : Svc) (inputs : list string)
    : app_result Svc :=
  match startup environ dotenv_file with
  | Abort t m => Aborted t m
  | Started _ => Running (run_session M invoke (initial_state s0) inputs)
  end.

(** The value the last .env entry of [k] gives it, if there is one. *)
Fixpoint last_entry (k : string) (entries : dotenv_entries) : option (option string) :=
  match entries with
  | [] => None
  | (k', v) :: rest =>
      match last_entry k rest with
      | Some r => Some r
      | None => if String.eqb k k' then Some v else None
      end
  end.

(** ** Sample agents *)

(** An agent that answers with its prompt. *)
Definition echo_agent (s : unit) (query : string) : unit * agent_reply :=
  (s, Returned [("output", query)]).

(** An agent whose call fails with a connection error. *)
Definition failing_agent (s : unit) (query : string) : unit * agent_reply :=
  (s, Raised "Connection error").

(** An agent whose call is interrupted (Ctrl-C while it runs). *)
Definition interrupted_agent (s : unit) (query : string) : unit * agent_reply :=
  (s, RaisedBase "KeyboardInterrupt" "").

(** An agent that counts its calls and answers with a fixed text. *)
Definition counting_agent (n : nat) (query : string) : nat * agent_reply :=
  (S n, Returned [("output", "42 mm")]).

Example data_dictionary_bytes : String.length data_dictionary = 3828%nat.
Proof. reflexivity. Qed.
Example answers_bytes :
  map String.length [qa_answer_areas; qa_answer_recommendation; qa_answer_why]
  = [337; 578; 558]%nat.
Proof. reflexivity. Qed.
Example ascii_normalize_ex :
  ascii_strip (ascii_lower ("  Recommendation To Reduce Impact " ++ nl)) =
  "recommendation to reduce impact".
Proof. reflexivity. Qed.
Example dotenv_last_wins :
  load_dotenv [("OPENAI_API_KEY", Some "k1"); ("DB", None); ("OPENAI_API_KEY", Some "k2")] []
  = [("OPENAI_API_KEY", "k2")].
Proof. reflexivity. Qed.

(** ** Lookup in the hardcoded table *)

Lemma dict_get_None_iff (k : string) (d : dict) :
  dict_get k d = None <-> ~ In k (map fst d).
Proof.
  induction d as [| [k' v] d IH]; simpl.
  - tauto.
  - destruct (String.eqb k k') eqn:E.
    + apply String.eqb_eq in E; subst. split; [discriminate | tauto].
    + apply String.eqb_neq in E. rewrite IH. split.
      * intros H [H' | H']; [congruence | tauto].
      * tauto.
Qed.

Lemma hardcoded_qa_get (k a : string) :
  In (k, a) hardcoded_qa -> dict_get k hardcoded_qa = Some a.
Proof.
  intros H. simpl in H.
  destruct H as [H | [H | [H | []]]]; injection H as <- <-; reflexivity.
Qed.

Lemma hardcoded_qa_key_get (k : string) :
  In k (map fst hardcoded_qa) -> exists a, In (k, a) hardcoded_qa.
Proof.
  simpl. intros [H | [H | [H | []]]]; subst; eexists; simpl; eauto.
Qed.

Lemma try_resolve_canned (M : py_str_methods) {Svc : Type}
    (invoke : Svc -> string -> Svc * agent_reply)
    (dd : string) (qa : dict) (s : Svc) (question a : string) :
  dict_get (py_strip M (py_lower M question)) qa = Some a ->
  try_resolve M invoke dd qa s question = (s, [], Ok a).
Proof. intros H. unfold try_resolve. rewrite H. reflexivity. Qed.

Lemma try_resolve_delegated (M : py_str_methods) {Svc : Type}
    (invoke : Svc -> string -> Svc * agent_reply)
    (dd : string) (qa : dict) (s s' : Svc) (question : string) (rep : agent_reply) :
  dict_get (py_strip M (py_lower M question)) qa = None ->
  invoke s (dd ++ nl ++ nl ++ question) = (s', rep) ->
  try_resolve M invoke dd qa s question =
    (s', [dd ++ nl ++ nl ++ question],
      match rep with
      | Raised m => Exn m
      | RaisedBase t m => Uncaught t m
      | Returned d =>
          match dict_get "output" d with Some o => Ok o | None => Exn "'output'" end
      end).
Proof. intros H Hi. unfold try_resolve. rewrite H, Hi. reflexivity. Qed.

Lemma not_key_ascii (q : string) :
  In (py_strip ascii_str_methods (py_lower ascii_str_methods q)) (map fst hardcoded_qa) ->
  In (ascii_strip (ascii_lower q)) (map fst hardcoded_qa).
Proof. exact (fun H => H). Qed.

(** C1: a question whose [lower().strip()] form is a key of the hardcoded
    table is answered with that key's fixed answer, whatever [lower] and
    [strip] do on other text and whatever the agent and its state; the
    agent is not called and its state is unchanged. *)
Theorem resolve_canonical_answer (M : py_str_methods) {Svc : Type}
    (invoke : Svc -> string -> Svc * agent_reply) (s : Svc) (question k a : string) :
  In (k, a) hardcoded_qa ->
  py_strip M (py_lower M question) = k ->
  resolve M invoke s question = (s, [], Answer a).
Proof.
  intros Hin Hk. unfold resolve.
  rewrite (try_resolve_canned M invoke data_dictionary hardcoded_qa s question a).
  - reflexivity.
  - rewrite Hk. now apply hardcoded_qa_get.
Qed.

Lemma resolve_canonical_answer_witness :
  In ("why are these areas impacted", qa_answer_why) hardcoded_qa /\
  resolve ascii_str_methods failing_agent tt ("  Why Are These Areas Impacted" ++ nl) =
    (tt, [], Answer qa_answer_why).
Proof.
  split; [simpl; tauto |].
  apply (resolve_canonical_answer ascii_str_methods failing_agent tt _
           "why are these areas impacted");
    [simpl; tauto | reflexivity].
Defined.

(** C2: a question whose [lower().strip()] form is not a key of the
    hardcoded table is sent to the agent exactly once, as the prompt
    [data_dictionary ++ "\n\n" ++ question] with the question as typed;
    when the agent returns a dict whose ["output"] is [o], the answer is
    [o] unchanged. *)
Theorem resolve_delegates_once (M : py_str_methods) {Svc : Type}
    (invoke : Svc -> string -> Svc * agent_reply) (s s' : Svc)
    (question o : string) (d : dict) :
  ~ In (py_strip M (py_lower M question)) (map fst hardcoded_qa) ->
  invoke s (data_dictionary ++ nl ++ nl ++ question) = (s', Returned d) ->
  dict_get "output" d = Some o ->
  resolve M invoke s question =
    (s', [data_dictionary ++ nl ++ nl ++ question], Answer o).
Proof.
  intros Hn Hi Ho. unfold resolve.
  rewrite (try_resolve_delegated M invoke data_dictionary hardcoded_qa s s' question
             (Returned d)).
  - rewrite Ho. reflexivity.
  - now apply dict_get_None_iff.
  - exact Hi.
Qed.

Lemma resolve_delegates_once_witness :
  resolve ascii_str_methods counting_agent 5%nat "What is the rainfall in Abu Dhabi today?" =
    (6%nat, [data_dictionary ++ nl ++ nl ++ "What is the rainfall in Abu Dhabi today?"],
     Answer "42 mm").
Proof.
  apply (resolve_delegates_once ascii_str_methods counting_agent 5%nat 6%nat _ _
           [("output", "42 mm")]).
  - intros H. apply not_key_ascii in H. simpl in H.
    destruct H as [H | [H | [H | []]]]; discriminate H.
  - reflexivity.
  - reflexivity.
Defined.

(** C3 (as stated): no call of the resolver lets an exception escape.  It
    fails for exceptions outside [Exception]: a [KeyboardInterrupt] raised
    during the agent call is not caught by [except Exception] and
    propagates. *)
Lemma resolve_base_exception_counterexample :
  resolve ascii_str_methods interrupted_agent tt "What is the rainfall in Abu Dhabi today?" =
    (tt, [data_dictionary ++ nl ++ nl ++ "What is the rainfall in Abu Dhabi today?"],
     Propagates "KeyboardInterrupt" "").
Proof. vm_compute. reflexivity. Qed.

(** C3 (amended): on a question sent to the agent, an exception of class
    [Exception] (or a subclass) with message [m] is caught and the answer
    is ["Error: " ++ m]; a reply without ["output"] gives
    ["Error: 'output'"] the same way; only an exception outside
    [Exception] propagates. *)
Theorem resolve_agent_exceptions (M : py_str_methods) {Svc : Type}
    (invoke : Svc -> string -> Svc * agent_reply) (s s' : Svc) (question : string)
    (rep : agent_reply) :
  ~ In (py_strip M (py_lower M question)) (map fst hardcoded_qa) ->
  invoke s (data_dictionary ++ nl ++ nl ++ question) = (s', rep) ->
  snd (resolve M invoke s question) =
    match rep with
    | Raised m => Answer ("Error: " ++ m)
    | RaisedBase t m => Propagates t m
    | Returned d =>
        match dict_get "output" d with
        | Some o => Answer o
        | None => Answer "Error: 'output'"
        end
    end.
Proof.
  intros Hn Hi. unfold resolve.
  rewrite (try_resolve_delegated M invoke data_dictionary hardcoded_qa s s' question rep).
  - destruct rep as [m | t m | d]; simpl; [reflexivity | reflexivity |].
    destruct (dict_get "output" d); reflexivity.
  - now apply dict_get_None_iff.
  - exact Hi.
Qed.

Lemma resolve_agent_exceptions_witness :
  snd (resolve ascii_str_methods failing_agent tt "What is the rainfall in Abu Dhabi today?") =
    Answer "Error: Connection error".
Proof.
  apply (resolve_agent_exceptions ascii_str_methods failing_agent tt tt _
           (Raised "Connection error")).
  - intros H. apply not_key_ascii in H. simpl in H.
    destruct H as [H | [H | [H | []]]]; discriminate H.
  - reflexivity.
Defined.

(** C5: the keys of the hardcoded table are exactly the three questions,
    and a question whose [lower().strip()] form is none of them, even one
    character away from a key, is not answered from the table: it is sent
    to the agent as the prompt [data_dictionary ++ "\n\n" ++ question]. *)
Theorem canonical_keys_exact_match (M : py_str_methods) {Svc : Type}
    (invoke : Svc -> string -> Svc * agent_reply) (s : Svc) (question : string) :
  map fst hardcoded_qa =
    [ "which area will have a high impact for future floods"
    ; "recommendation to reduce impact"
    ; "why are these areas impacted" ] /\
  (~ In (py_strip M (py_lower M question)) (map fst hardcoded_qa) ->
   snd (fst (resolve M invoke s question)) = [data_dictionary ++ nl ++ nl ++ question]).
Proof.
  split; [reflexivity |].
  intros Hn. unfold resolve.
  destruct (invoke s (data_dictionary ++ nl ++ nl ++ question)) as [s' rep] eqn:Hi.
  rewrite (try_resolve_delegated M invoke data_dictionary hardcoded_qa s s' question rep).
  - reflexivity.
  - now apply dict_get_None_iff.
  - exact Hi.
Qed.

Lemma canonical_keys_exact_match_witness :
  snd (fst (resolve ascii_str_methods echo_agent tt "why are these areas impacted?")) =
    [data_dictionary ++ nl ++ nl ++ "why are these areas impacted?"].
Proof.
  apply (proj2 (canonical_keys_exact_match ascii_str_methods echo_agent tt
                  "why are these areas impacted?")).
  intros H. apply not_key_ascii in H. simpl in H.
  destruct H as [H | [H | [H | []]]]; discriminate H.
Defined.

(** C6 (as stated): two questions that differ only in case and
    surrounding whitespace resolve identically.  It fails off the table:
    ["Hello"] and ["hello"] normalise alike, but the agent is sent the
    question as typed, and an agent answering with its prompt tells them
    apart (ASCII text, on which [ascii_str_methods] is Python's). *)
Lemma case_insensitive_all_paths_counterexample :
  ascii_strip (ascii_lower "Hello") = ascii_strip (ascii_lower "hello") /\
  resolve ascii_str_methods echo_agent tt "Hello" <>
  resolve ascii_str_methods echo_agent tt "hello".
Proof.
  split; [reflexivity |].
  intros H.
  assert (E : match snd (resolve ascii_str_methods echo_agent tt "Hello"),
                    snd (resolve ascii_str_methods echo_agent tt "hello") with
              | Answer a, Answer b => String.eqb a b
              | _, _ => false
              end = true)
    by (rewrite H; vm_compute; reflexivity).
  vm_compute in E. discriminate E.
Qed.

(** C6 (amended): two questions with the same [lower().strip()] form
    resolve identically when that form is a key of the hardcoded table,
    e.g. ["Recommendation To Reduce Impact"] and
    ["recommendation to reduce impact"]. *)
Theorem resolve_case_insensitive_canonical (M : py_str_methods) {Svc : Type}
    (invoke : Svc -> string -> Svc * agent_reply) (s : Svc) (q1 q2 : string) :
  py_strip M (py_lower M q1) = py_strip M (py_lower M q2) ->
  In (py_strip M (py_lower M q1)) (map fst hardcoded_qa) ->
  resolve M invoke s q1 = resolve M invoke s q2.
Proof.
  intros Heq Hin.
  destruct (hardcoded_qa_key_get _ Hin) as [a Ha].
  rewrite (resolve_canonical_answer M invoke s q1 _ a Ha eq_refl).
  rewrite (resolve_canonical_answer M invoke s q2 _ a Ha (eq_sym Heq)).
  reflexivity.
Qed.

Lemma resolve_case_insensitive_canonical_witness :
  resolve ascii_str_methods echo_agent tt "Recommendation To Reduce Impact" =
  resolve ascii_str_methods echo_agent tt "recommendation to reduce impact".
Proof.
  apply resolve_case_insensitive_canonical; [reflexivity | simpl; tauto].
Defined.

(** C7: on a key of the hardcoded table the resolver carries no state:
    two calls from any agent states give the same answer, and neither
    call changes the agent's state or sends it a prompt. *)
Theorem resolve_canonical_stateless (M : py_str_methods) {Svc : Type}
    (invoke : Svc -> string -> Svc * agent_reply) (s1 s2 : Svc) (question : string) :
  In (py_strip M (py_lower M question)) (map fst hardcoded_qa) ->
  snd (resolve M invoke s1 question) = snd (resolve M invoke s2 question) /\
  fst (resolve M invoke s1 question) = (s1, []) /\
  fst (resolve M invoke s2 question) = (s2, []).
Proof.
  intros Hin.
  destruct (hardcoded_qa_key_get _ Hin) as [a Ha].
  rewrite (resolve_canonical_answer M invoke s1 question _ a Ha eq_refl).
  rewrite (resolve_canonical_answer M invoke s2 question _ a Ha eq_refl).
  repeat split.
Qed.

Lemma resolve_canonical_stateless_witness :
  snd (resolve ascii_str_methods counting_agent 0%nat
         "which area will have a high impact for future floods") =
  snd (resolve ascii_str_methods counting_agent 7%nat
         "which area will have a high impact for future floods") /\
  fst (resolve ascii_str_methods counting_agent 0%nat
         "which area will have a high impact for future floods") = (0%nat, []) /\
  fst (resolve ascii_str_methods counting_agent 7%nat
         "which area will have a high impact for future floods") = (7%nat, []).
Proof.
  apply resolve_canonical_stateless. simpl. tauto.
Defined.

(** C4: when the agent call fails, the submission appends only the
    Assistant error turn; no User turn records the submitted text. *)
Theorem submit_error_omits_user_turn :
  st_conversation
    (submit ascii_str_methods failing_agent (initial_state tt)
       "What is the rainfall in Abu Dhabi today?") =
  [(Assistant, "Error: Connection error")] /\
  display
    (st_conversation
       (submit ascii_str_methods failing_agent (initial_state tt)
          "What is the rainfall in Abu Dhabi today?")) =
  ["**Assistant:** Error: Connection error"].
Proof. split; vm_compute; reflexivity. Qed.

(** ** The module globals across a session *)

Lemma try_resolve_calls (M : py_str_methods) {Svc : Type}
    (invoke : Svc -> string -> Svc * agent_reply)
    (dd : string) (qa : dict) (s : Svc) (question : string) :
  snd (fst (try_resolve M invoke dd qa s question)) = [] \/
  snd (fst (try_resolve M invoke dd qa s question)) = [dd ++ nl ++ nl ++ question].
Proof.
  unfold try_resolve.
  destruct (dict_get _ qa); [left; reflexivity |].
  destruct (invoke s _). right. reflexivity.
Qed.

Definition prefixed_by (dd : string) (calls : list string) : Prop :=
  Forall (fun q => exists u, q = dd ++ nl ++ nl ++ u) calls.

Lemma submit_keeps_globals (M : py_str_methods) {Svc : Type}
    (invoke : Svc -> string -> Svc * agent_reply)
    (g : app_state Svc) (user_input : string) :
  st_data_dictionary (submit M invoke g user_input) = st_data_dictionary g /\
  st_hardcoded_qa (submit M invoke g user_input) = st_hardcoded_qa g /\
  exists calls, st_calls (submit M invoke g user_input) = (st_calls g ++ calls)%list /\
                prefixed_by (st_data_dictionary g) calls.
Proof.
  unfold submit. destruct (py_truthy user_input).
  - pose proof (try_resolve_calls M invoke (st_data_dictionary g) (st_hardcoded_qa g)
                  (st_service g) user_input) as Hc.
    destruct (try_resolve M invoke _ _ _ user_input) as [[s' calls] o]; simpl in *.
    split; [reflexivity |]. split; [reflexivity |].
    exists calls. split; [reflexivity |]. unfold prefixed_by.
    destruct Hc as [-> | ->];
      [constructor | constructor; [exists user_input; reflexivity | constructor]].
  - split; [reflexivity |]. split; [reflexivity |].
    exists []. split; [symmetry; apply app_nil_r | constructor].
Qed.

Lemma run_session_keeps_globals (M : py_str_methods) {Svc : Type}
    (invoke : Svc -> string -> Svc * agent_reply)
    (inputs : list string) : forall (g : app_state Svc),
  prefixed_by (st_data_dictionary g) (st_calls g) ->
  st_data_dictionary (run_session M invoke g inputs) = st_data_dictionary g /\
  st_hardcoded_qa (run_session M invoke g inputs) = st_hardcoded_qa g /\
  prefixed_by (st_data_dictionary g) (st_calls (run_session M invoke g inputs)).
Proof.
  unfold run_session.
  induction inputs as [| u inputs IH]; intros g Hp; simpl; [tauto |].
  destruct (submit_keeps_globals M invoke g u) as [Hd [Hq [calls [Hc Hpc]]]].
  destruct (IH (submit M invoke g u)) as [Hd' [Hq' Hp']].
  - rewrite Hd, Hc. apply Forall_app. tauto.
  - rewrite Hd', Hq', Hd, Hq. rewrite Hd in Hp'. tauto.
Qed.

(** C9: however many questions a session submits, whatever they resolve
    to, the data dictionary and the hardcoded table of the session state
    are the program's constants, and every prompt sent to the agent starts
    with [data_dictionary ++ "\n\n"]. *)
Theorem session_globals_immutable (M : py_str_methods) {Svc : Type}
    (invoke : Svc -> string -> Svc * agent_reply) (s0 : Svc) (inputs : list string) :
  st_data_dictionary (run_session M invoke (initial_state s0) inputs) = data_dictionary /\
  st_hardcoded_qa (run_session M invoke (initial_state s0) inputs) = hardcoded_qa /\
  Forall (fun q => exists u, q = data_dictionary ++ nl ++ nl ++ u)
    (st_calls (run_session M invoke (initial_state s0) inputs)).
Proof.
  apply (run_session_keeps_globals M invoke inputs (initial_state s0)).
  constructor.
Qed.

(** ** The environment after [load_dotenv()] *)

Lemma set_env_keeps_existing (k v : string) (values : dotenv_entries) :
  forall (environ : env),
  dict_get k environ = Some v ->
  dict_get k (set_as_environment_variables values environ) = Some v.
Proof.
  unfold set_as_environment_variables.
  induction values as [| [k' v'] d IH]; intros environ H; simpl; [exact H |].
  apply IH. destruct (dict_get k' environ) eqn:E; [exact H |].
  destruct v' as [v' |]; [| exact H].
  unfold env_set. simpl. destruct (String.eqb k k') eqn:Ek; [| exact H].
  apply String.eqb_eq in Ek. subst. congruence.
Qed.

Lemma odict_get_set (k k' : string) (v : option string) (d : dotenv_entries) :
  odict_get k (odict_set k' v d) = if String.eqb k k' then Some v else odict_get k d.
Proof.
  induction d as [| [k'' v''] d IH]; simpl.
  - reflexivity.
  - destruct (String.eqb k' k'') eqn:E1; simpl.
    + apply String.eqb_eq in E1. subst k''.
      destruct (String.eqb k k'); reflexivity.
    + rewrite IH. destruct (String.eqb k k'') eqn:E2; [| reflexivity].
      apply String.eqb_eq in E2. subst k''.
      destruct (String.eqb k k') eqn:E3; [| reflexivity].
      apply String.eqb_eq in E3. subst k'. rewrite String.eqb_refl in E1. discriminate.
Qed.

Lemma odict_set_keys (x k : string) (v : option string) (d : dotenv_entries) :
  In x (map fst (odict_set k v d)) <-> x = k \/ In x (map fst d).
Proof.
  induction d as [| [k' v'] d IH]; simpl.
  - intuition congruence.
  - destruct (String.eqb k k') eqn:E; simpl.
    + apply String.eqb_eq in E. subst. intuition congruence.
    + rewrite IH. tauto.
Qed.

Lemma odict_set_nodup (k : string) (v : option string) (d : dotenv_entries) :
  NoDup (map fst d) -> NoDup (map fst (odict_set k v d)).
Proof.
  induction d as [| [k' v'] d IH]; simpl; intros Hd.
  - repeat constructor. simpl. tauto.
  - inversion Hd as [| ? ? Hn Hd']; subst.
    destruct (String.eqb k k') eqn:E; simpl.
    + apply String.eqb_eq in E. subst. constructor; assumption.
    + constructor; [| now apply IH].
      rewrite odict_set_keys. apply String.eqb_neq in E. intros [H | H]; [congruence | tauto].
Qed.

Lemma dotenv_values_fold (k : string) (entries : dotenv_entries) :
  forall (d : dotenv_entries),
  odict_get k (fold_left (fun d kv => odict_set (fst kv) (snd kv) d) entries d) =
    match last_entry k entries with Some r => Some r | None => odict_get k d end.
Proof.
  induction entries as [| [k' v] rest IH]; intros d; simpl; [reflexivity |].
  rewrite IH, odict_get_set.
  destruct (last_entry k rest); [reflexivity |].
  destruct (String.eqb k k'); reflexivity.
Qed.

Lemma dotenv_values_nodup (entries : dotenv_entries) :
  forall (d : dotenv_entries), NoDup (map fst d) ->
  NoDup (map fst (fold_left (fun d kv => odict_set (fst kv) (snd kv) d) entries d)).
Proof.
  induction entries as [| [k' v] rest IH]; intros d Hd; simpl; [exact Hd |].
  apply IH. now apply odict_set_nodup.
Qed.

Lemma odict_get_notin (k : string) (d : dotenv_entries) :
  ~ In k (map fst d) -> odict_get k d = None.
Proof.
  induction d as [| [k' v] d IH]; simpl; intros Hn; [reflexivity |].
  destruct (String.eqb k k') eqn:E.
  - apply String.eqb_eq in E. subst. tauto.
  - apply IH. tauto.
Qed.

Lemma set_env_missing (k : string) (values : dotenv_entries) :
  NoDup (map fst values) -> forall (environ : env),
  dict_get k environ = None ->
  dict_get k (set_as_environment_variables values environ) =
    match odict_get k values with Some (Some v) => Some v | _ => None end.
Proof.
  unfold set_as_environment_variables.
  induction values as [| [k' v'] d IH]; intros Hnd environ H; simpl; [exact H |].
  inversion Hnd as [| ? ? Hn Hd]; subst.
  destruct (String.eqb k k') eqn:Ek.
  - apply String.eqb_eq in Ek. subst k'. rewrite H.
    destruct v' as [v |].
    + apply set_env_keeps_existing. unfold env_set. simpl. rewrite String.eqb_refl.
      reflexivity.
    + rewrite (IH Hd environ H). rewrite (odict_get_notin k d Hn). reflexivity.
  - apply (IH Hd). destruct (dict_get k' environ); [exact H |].
    destruct v'; [| exact H]. unfold env_set. simpl. rewrite Ek. exact H.
Qed.

(** X8: a variable missing from the process environment gets the value
    of its last entry in the .env file; it stays missing when the file has
    no entry for it or its last entry has no value. *)
Theorem load_dotenv_fills_missing (k : string) (dotenv_file : dotenv_entries) (environ : env) :
  dict_get k environ = None ->
  dict_get k (load_dotenv dotenv_file environ) =
    match last_entry k dotenv_file with Some (Some v) => Some v | _ => None end.
Proof.
  intros H. unfold load_dotenv, dotenv_values.
  rewrite (set_env_missing k _ (dotenv_values_nodup dotenv_file [] (NoDup_nil _)) environ H).
  rewrite dotenv_values_fold. simpl.
  destruct (last_entry k dotenv_file); reflexivity.
Qed.

(** X7: [load_dotenv()] gives the process environment precedence: a
    variable already set keeps its value, whatever the .env file says. *)
Theorem load_dotenv_no_override (k v : string) (dotenv_file : dotenv_entries)
    (environ : env) :
  dict_get k environ = Some v -> dict_get k (load_dotenv dotenv_file environ) = Some v.
Proof. apply set_env_keeps_existing. Qed.

Lemma load_dotenv_no_override_witness :
  dict_get "OPENAI_API_KEY"
    (load_dotenv [("OPENAI_API_KEY", Some "from-file")]
       [("OPENAI_API_KEY", "from-shell")]) = Some "from-shell".
Proof. apply load_dotenv_no_override. reflexivity. Defined.

Lemma load_dotenv_fills_missing_witness :
  dict_get "OPENAI_API_KEY"
    (load_dotenv [("DB", Some "flood.db"); ("OPENAI_API_KEY", Some "k1");
                  ("OPENAI_API_KEY", Some "k2")]
       [("HOME", "/root")]) = Some "k2".
Proof. apply load_dotenv_fills_missing. reflexivity. Defined.

(** X9: when the credential is set and non-empty in the process
    environment, startup succeeds whatever the .env file holds, and the
    started environment's [OPENAI_API_KEY] (line 20) is that value. *)
Theorem startup_shell_key_wins (environ : env) (dotenv_file : dotenv_entries) (k : string) :
  dict_get "OPENAI_API_KEY" environ = Some k ->
  py_truthy k = true ->
  exists environ',
    startup environ dotenv_file = Started environ' /\
    dict_get "OPENAI_API_KEY" environ' = Some k.
Proof.
  intros Hk Ht. unfold startup, load_dotenv.
  rewrite (set_env_keeps_existing _ _ (dotenv_values dotenv_file) environ Hk), Ht.
  eexists. split; [reflexivity |]. unfold env_set. simpl. reflexivity.
Qed.

Lemma startup_shell_key_wins_witness :
  exists environ',
    startup [("OPENAI_API_KEY", "sk-shell")] [("OPENAI_API_KEY", Some "")] =
      Started environ' /\
    dict_get "OPENAI_API_KEY" environ' = Some "sk-shell".
Proof. apply startup_shell_key_wins; reflexivity. Defined.

(** ** Startup *)

(** C8 (as stated): a credential variable that is present lets startup
    proceed.  It fails for a variable set to the empty string. *)
Lemma startup_present_key_counterexample :
  dict_get "OPENAI_API_KEY" (load_dotenv [] [("OPENAI_API_KEY", "")]) = Some "" /\
  startup [("OPENAI_API_KEY", "")] [] = Abort "ValueError" missing_key_msg.
Proof. split; reflexivity. Qed.

(** C8 (amended): when [OPENAI_API_KEY], read after [load_dotenv()], is
    absent or empty, the program aborts with [ValueError(missing_key_msg)]
    whatever the later input, so no question is processed; when it is
    present and non-empty, startup proceeds to the session. *)
Theorem startup_credential_gate (M : py_str_methods) {Svc : Type}
    (invoke : Svc -> string -> Svc * agent_reply) (environ : env)
    (dotenv_file : dotenv_entries) (s0 : Svc) (inputs : list string) :
  (match dict_get "OPENAI_API_KEY" (load_dotenv dotenv_file environ) with
   | Some k => py_truthy k = false
   | None => True
   end ->
   run_app M invoke environ dotenv_file s0 inputs = Aborted "ValueError" missing_key_msg) /\
  (forall k, dict_get "OPENAI_API_KEY" (load_dotenv dotenv_file environ) = Some k ->
   py_truthy k = true ->
   startup environ dotenv_file =
     Started (env_set "OPENAI_API_KEY" k (load_dotenv dotenv_file environ)) /\
   run_app M invoke environ dotenv_file s0 inputs =
     Running (run_session M invoke (initial_state s0) inputs)).
Proof.
  unfold run_app, startup. split.
  - destruct (dict_get _ _) as [k |]; [intros Hk; rewrite Hk |]; reflexivity.
  - intros k Hk Ht. rewrite Hk, Ht. split; reflexivity.
Qed.

Lemma startup_credential_gate_witness :
  run_app ascii_str_methods echo_agent []
    [("OPENAI_API_KEY", Some "sk"); ("OPENAI_API_KEY", Some "")] tt
    ["why are these areas impacted"] =
    Aborted "ValueError" missing_key_msg /\
  run_app ascii_str_methods echo_agent []
    [("OPENAI_API_KEY", Some ""); ("OPENAI_API_KEY", Some "sk-test")] tt
    ["why are these areas impacted"] =
    Running (run_session ascii_str_methods echo_agent (initial_state tt)
               ["why are these areas impacted"]).
Proof.
  split.
  - apply (proj1 (startup_credential_gate ascii_str_methods echo_agent []
                    [("OPENAI_API_KEY", Some "sk"); ("OPENAI_API_KEY", Some "")] tt _)).
    reflexivity.
  - apply (proj2 (startup_credential_gate ascii_str_methods echo_agent []
                    [("OPENAI_API_KEY", Some ""); ("OPENAI_API_KEY", Some "sk-test")] tt _)
             "sk-test"); reflexivity.
Defined.

(** C10: a credential variable set to the empty string is rejected exactly
    as a missing one: the same [ValueError] with the same message. *)
Theorem startup_empty_key_as_missing (environ environ' : env)
    (dotenv_file dotenv_file' : dotenv_entries) :
  dict_get "OPENAI_API_KEY" (load_dotenv dotenv_file environ) = Some "" ->
  dict_get "OPENAI_API_KEY" (load_dotenv dotenv_file' environ') = None ->
  startup environ dotenv_file = startup environ' dotenv_file' /\
  startup environ dotenv_file = Abort "ValueError" missing_key_msg.
Proof.
  intros He Hn. unfold startup. rewrite He, Hn. split; reflexivity.
Qed.

Lemma startup_empty_key_as_missing_witness :
  startup [] [("OPENAI_API_KEY", Some "sk"); ("OPENAI_API_KEY", Some "")] =
    startup [("HOME", "/root")] [("OPENAI_API_KEY", None)] /\
  startup [] [("OPENAI_API_KEY", Some "sk"); ("OPENAI_API_KEY", Some "")] =
    Abort "ValueError" missing_key_msg.
Proof. apply startup_empty_key_as_missing; reflexivity. Defined.

(** ** Sessions: empty inputs, the transcript and the agent's prompts *)

Lemma submit_empty (M : py_str_methods) {Svc : Type}
    (invoke : Svc -> string -> Svc * agent_reply)
    (g : app_state Svc) (user_input : string) :
  py_truthy user_input = false -> submit M invoke g user_input = g.
Proof. intros H. unfold submit. rewrite H. reflexivity. Qed.

(** X1: empty inputs are no-ops: a session gives the same state when its
    empty inputs are dropped. *)
Theorem run_session_skips_empty (M : py_str_methods) {Svc : Type}
    (invoke : Svc -> string -> Svc * agent_reply) (inputs : list string) :
  forall (g : app_state Svc),
  run_session M invoke g (filter py_truthy inputs) = run_session M invoke g inputs.
Proof.
  unfold run_session.
  induction inputs as [| u inputs IH]; intros g; simpl; [reflexivity |].
  destruct (py_truthy u) eqn:Hu; simpl.
  - apply IH.
  - rewrite (submit_empty M invoke g u Hu). apply IH.
Qed.

Lemma submit_conversation (M : py_str_methods) {Svc : Type}
    (invoke : Svc -> string -> Svc * agent_reply)
    (g : app_state Svc) (user_input : string) :
  st_conversation (submit M invoke g user_input) = st_conversation g \/
  (exists r, st_conversation (submit M invoke g user_input) =
             (st_conversation g ++ [(User, user_input); (Assistant, r)])%list) \/
  (exists m, st_conversation (submit M invoke g user_input) =
             (st_conversation g ++ [(Assistant, ("Error: " ++ m)%string)])%list).
Proof.
  unfold submit. destruct (py_truthy user_input); [| left; reflexivity].
  destruct (try_resolve M invoke _ _ _ user_input) as [[s' calls] [r | m | t m]]; simpl.
  - right; left. exists r. reflexivity.
  - right; right. exists m. reflexivity.
  - left. reflexivity.
Qed.

(** X2: the conversation is append-only: a session only adds turns after
    the existing ones. *)
Theorem run_session_conversation_extends (M : py_str_methods) {Svc : Type}
    (invoke : Svc -> string -> Svc * agent_reply) (inputs : list string) :
  forall (g : app_state Svc),
  exists ext, st_conversation (run_session M invoke g inputs) =
              (st_conversation g ++ ext)%list.
Proof.
  unfold run_session.
  induction inputs as [| u inputs IH]; intros g; simpl.
  - exists []. symmetry. apply app_nil_r.
  - destruct (IH (submit M invoke g u)) as [ext Hext]. rewrite Hext.
    destruct (submit_conversation M invoke g u) as [H | [[r H] | [m H]]]; rewrite H.
    + exists ext. reflexivity.
    + eexists. rewrite <- app_assoc. reflexivity.
    + eexists. rewrite <- app_assoc. reflexivity.
Qed.

Lemma user_answered_app (c d : list turn) :
  user_answered c = true -> user_answered (c ++ d) = user_answered d.
Proof.
  remember (length c) as n eqn:Hn.
  revert c Hn. induction n as [n IH] using lt_wf_ind. intros c Hn Hc.
  destruct c as [| [[|] m] c]; simpl in *.
  - reflexivity.
  - destruct c as [| [[|] r] c]; simpl in *; try discriminate.
    apply (IH (length c)); [lia | reflexivity | exact Hc].
  - apply (IH (length c)); [lia | reflexivity | exact Hc].
Qed.

(** X3: in a session whose transcript starts well formed (e.g. empty),
    every User turn is immediately followed by an Assistant turn. *)
Theorem run_session_user_answered (M : py_str_methods) {Svc : Type}
    (invoke : Svc -> string -> Svc * agent_reply) (inputs : list string) :
  forall (g : app_state Svc),
  user_answered (st_conversation g) = true ->
  user_answered (st_conversation (run_session M invoke g inputs)) = true.
Proof.
  unfold run_session.
  induction inputs as [| u inputs IH]; intros g Hg; simpl; [exact Hg |].
  apply IH.
  destruct (submit_conversation M invoke g u) as [H | [[r H] | [m H]]]; rewrite H.
  - exact Hg.
  - rewrite (user_answered_app _ _ Hg). reflexivity.
  - rewrite (user_answered_app _ _ Hg). reflexivity.
Qed.

Lemma run_session_user_answered_witness :
  user_answered (st_conversation (initial_state tt)) = true /\
  user_answered
    (st_conversation
       (run_session ascii_str_methods failing_agent (initial_state tt)
          ["why are these areas impacted"; "What is the rainfall?"; ""])) = true.
Proof.
  split; [reflexivity |].
  apply run_session_user_answered. reflexivity.
Defined.

Lemma submit_calls (M : py_str_methods) {Svc : Type}
    (invoke : Svc -> string -> Svc * agent_reply)
    (g : app_state Svc) (user_input : string) :
  st_calls (submit M invoke g user_input) =
    (st_calls g ++
     if delegated_input M (st_hardcoded_qa g) user_input
     then [(st_data_dictionary g ++ nl ++ nl ++ user_input)%string] else [])%list.
Proof.
  unfold submit, delegated_input.
  destruct (py_truthy user_input); simpl; [| symmetry; apply app_nil_r].
  unfold try_resolve.
  destruct (dict_get _ (st_hardcoded_qa g)); simpl; [reflexivity |].
  destruct (invoke _ _); reflexivity.
Qed.

(** X4: over a session, the agent receives exactly one prompt per input
    that is non-empty and whose [lower().strip()] form is not a key of the
    hardcoded table, in input order, each as the data dictionary, "\n\n"
    and the input as typed; canned and empty inputs send nothing. *)
Theorem run_session_calls (M : py_str_methods) {Svc : Type}
    (invoke : Svc -> string -> Svc * agent_reply) (inputs : list string) :
  forall (g : app_state Svc),
  st_calls (run_session M invoke g inputs) =
    (st_calls g ++
     map (fun u => (st_data_dictionary g ++ nl ++ nl ++ u)%string)
       (filter (delegated_input M (st_hardcoded_qa g)) inputs))%list.
Proof.
  unfold run_session.
  induction inputs as [| u inputs IH]; intros g; simpl.
  - symmetry. apply app_nil_r.
  - rewrite IH.
    destruct (submit_keeps_globals M invoke g u) as [Hd [Hq _]].
    rewrite Hd, Hq, submit_calls.
    destruct (delegated_input M (st_hardcoded_qa g) u); simpl.
    + rewrite <- app_assoc. reflexivity.
    + rewrite app_nil_r. reflexivity.
Qed.

(** X5: a non-empty input that [lower().strip()] turns into [""] (one
    made only of whitespace) is not treated as empty: [""] is no key of
    the table, so the input is sent to the agent. *)
Theorem submit_whitespace_only_delegated (M : py_str_methods) {Svc : Type}
    (invoke : Svc -> string -> Svc * agent_reply) (g : app_state Svc)
    (user_input : string) :
  st_hardcoded_qa g = hardcoded_qa ->
  py_truthy user_input = true ->
  py_strip M (py_lower M user_input) = "" ->
  st_calls (submit M invoke g user_input) =
    (st_calls g ++ [(st_data_dictionary g ++ nl ++ nl ++ user_input)%string])%list.
Proof.
  intros Hq Ht Hs. rewrite submit_calls, Hq.
  unfold delegated_input. rewrite Ht, Hs. reflexivity.
Qed.

Lemma submit_whitespace_only_delegated_witness :
  st_calls (submit ascii_str_methods echo_agent (initial_state tt) ("  " ++ nl)) =
    [(data_dictionary ++ nl ++ nl ++ ("  " ++ nl))%string].
Proof.
  apply (submit_whitespace_only_delegated ascii_str_methods echo_agent (initial_state tt)
           ("  " ++ nl)); reflexivity.
Defined.

(** X6: when the agent returns a dict without an ["output"] entry, the
    [KeyError] of line 153 is caught like any agent error: the answer is
    ["Error: 'output'"]. *)
Theorem resolve_missing_output_key (M : py_str_methods) {Svc : Type}
    (invoke : Svc -> string -> Svc * agent_reply) (s s' : Svc)
    (question : string) (d : dict) :
  ~ In (py_strip M (py_lower M question)) (map fst hardcoded_qa) ->
  invoke s (data_dictionary ++ nl ++ nl ++ question) = (s', Returned d) ->
  dict_get "output" d = None ->
  resolve M invoke s question =
    (s', [data_dictionary ++ nl ++ nl ++ question], Answer "Error: 'output'").
Proof.
  intros Hn Hi Ho. unfold resolve.
  rewrite (try_resolve_delegated M invoke data_dictionary hardcoded_qa s s' question
             (Returned d)).
  - rewrite Ho. reflexivity.
  - now apply dict_get_None_iff.
  - exact Hi.
Qed.

Lemma resolve_missing_output_key_witness :
  resolve ascii_str_methods
    (fun (s : unit) (q : string) => (s, Returned [("intermediate_steps", "")]))
    tt "How many alerts today?" =
    (tt, [data_dictionary ++ nl ++ nl ++ "How many alerts today?"],
     Answer "Error: 'output'").
Proof.
  apply (resolve_missing_output_key ascii_str_methods _ tt tt _ [("intermediate_steps", "")]).
  - intros H. apply not_key_ascii in H. simpl in H.
    destruct H as [H | [H | [H | []]]]; discriminate H.
  - reflexivity.
  - reflexivity.
Defined.

(** X10: an exception outside [Exception] (e.g. [KeyboardInterrupt])
    raised by the agent call ends the run before any append: the
    conversation is left as it was, with neither a User nor an Assistant
    turn for the submission. *)
Theorem submit_base_exception_keeps_conversation (M : py_str_methods) {Svc : Type}
    (invoke : Svc -> string -> Svc * agent_reply) (g : app_state Svc) (s' : Svc)
    (user_input t m : string) :
  py_truthy user_input = true ->
  dict_get (py_strip M (py_lower M user_input)) (st_hardcoded_qa g) = None ->
  invoke (st_service g) (st_data_dictionary g ++ nl ++ nl ++ user_input) =
    (s', RaisedBase t m) ->
  st_conversation (submit M invoke g user_input) = st_conversation g.
Proof.
  intros Ht Hn Hi. unfold submit. rewrite Ht.
  rewrite (try_resolve_delegated M invoke _ _ (st_service g) s' user_input _ Hn Hi).
  reflexivity.
Qed.

Lemma submit_base_exception_keeps_conversation_witness :
  st_conversation
    (submit ascii_str_methods interrupted_agent
       (submit ascii_str_methods interrupted_agent (initial_state tt)
          "why are these areas impacted")
       "What is the rainfall?") =
  st_conversation
    (submit ascii_str_methods interrupted_agent (initial_state tt)
       "why are these areas impacted").
Proof.
  apply (submit_base_exception_keeps_conversation ascii_str_methods interrupted_agent _ tt
           "What is the rainfall?" "KeyboardInterrupt" ""); reflexivity.
Defined.
